(** * Shallow embedding of [main] of the BIRD configuration generator
    (src/main.go).

    The executable part of [main] is small: after flag parsing, template
    loading and config loading it
    - (non-dry-run only) creates [BirdDirectory/bird.conf] and executes the
      global template into it, then globs [BirdSocket/AS*.conf] and removes
      every match;
    - iterates over the peers and sets each peer's [ProtocolName].
    Enrichment, AS-SET checks, per-peer file writing and reconfiguration
    are present only as comments (lines 124-221) and are not modelled as
    behaviour of the program. *)

From stdpp Require Import base gmap strings list fin_maps.
From Stdlib Require Import Ascii String.

Open Scope string_scope.

(* ------------------------------------------------------------------ *)
(** ** Data model *)

(** Modelled from the spec: the [peer] struct (declared in a file that is
    not under src/). Field names follow their uses in main.go
    ([ProtocolName], [Asn], [Type] (as [Type_]), [AsSet], [ImportLimit4],
    [ImportLimit6], [NoPeeringDB], [QueryTime], [PrefixSet4],
    [PrefixSet6]); an import limit of 0 means unset. *)
Record peer := mk_peer {
  ProtocolName : string;
  Asn : N;
  Type_ : string; (* Go field [Type]; [Type] is a Rocq keyword *)
  AsSet : string;
  ImportLimit4 : N;
  ImportLimit6 : N;
  NoPeeringDB : bool;
  QueryTime : string;
  PrefixSet4 : list string;
  PrefixSet6 : list string
}.

(** [peerData.ProtocolName = v]: the only field the executable loop
    writes. *)
Definition set_ProtocolName (v : string) (p : peer) : peer :=
  {| ProtocolName := v; Asn := Asn p; Type_ := Type_ p; AsSet := AsSet p;
     ImportLimit4 := ImportLimit4 p; ImportLimit6 := ImportLimit6 p;
     NoPeeringDB := NoPeeringDB p; QueryTime := QueryTime p;
     PrefixSet4 := PrefixSet4 p; PrefixSet6 := PrefixSet6 p |}.

(** Modelled from the spec: the global [config] struct returned by
    [loadConfig] (not under src/). [Peers] is the Go map
    [map[string]*peer]; the list order stands for Go's unspecified map
    iteration order, so a statement over all lists covers every order.
    Keys are unique in a well-formed config. *)
Record config := mk_config {
  RouterId : string;
  GlobalAsn : N;
  BirdDirectory : string;
  BirdSocket : string;
  IrrDb : string;
  Peers : list (string * peer)
}.

(** The file system: file contents keyed by (directory, file name); the
    directories in which the process may create and remove entries; the
    existing files it may not open for writing (mode bits); and the files
    whose removal fails even from a writable directory (a sticky directory
    owned by another user, an immutable attribute). [path.Join(dir, name)]
    is the key [(dir, name)]; directory strings are taken as given (already
    clean). Directories themselves are not created or removed by [main]. *)
Record fsys := mk_fsys {
  files : gmap (string * string) string;
  writable : gset string;
  readonly : gset (string * string);
  undeletable : gset (string * string)
}.

(** Writing [data] as the whole contents of the open file [k]. *)
Definition fs_write (k : string * string) (data : string) (fs : fsys) : fsys :=
  mk_fsys (<[k := data]> (files fs)) (writable fs) (readonly fs) (undeletable fs).

Definition fs_delete (k : string * string) (fs : fsys) : fsys :=
  mk_fsys (delete k (files fs)) (writable fs) (readonly fs) (undeletable fs).

(** [os.Create(name)] is [open(name, O_RDWR|O_CREATE|O_TRUNC, 0666)]: an
    existing file is opened when the process may write it, a missing one is
    created when its directory is writable. *)
Definition create_ok (k : string * string) (fs : fsys) : bool :=
  match files fs !! k with
  | Some _ => bool_decide (k ∉ readonly fs)
  | None => bool_decide (k.1 ∈ writable fs)
  end.

(** The file after a successful [os.Create]: empty, and writable by the
    process (a new file gets mode 0666 minus the umask). *)
Definition fs_create (k : string * string) (fs : fsys) : fsys :=
  mk_fsys (<[k := ""]> (files fs)) (writable fs) (readonly fs ∖ {[k]})
    (undeletable fs).

(** [os.Remove(name)] of a file is [unlink]: the file must exist, its
    directory must be writable, and the file must not be protected. *)
Definition remove_ok (k : string * string) (fs : fsys) : bool :=
  match files fs !! k with
  | Some _ => bool_decide (k.1 ∈ writable fs) && bool_decide (k ∉ undeletable fs)
  | None => false
  end.

(** How a run ends: normally, through [log.Fatal*] (exit status 1), or
    through a Go runtime panic (index out of range). *)
Inductive outcome :=
  | Exited0
  | Fatal (msg : string)
  | Panicked.

(** Result of executing a template into a writer. [text/template] writes
    its output to the writer while it executes, so a failed execution has
    already written a prefix of the output. *)
Inductive render_result :=
  | RenderOk (out : string)
  | RenderErr (written : string) (err : string).

(* ------------------------------------------------------------------ *)
(** ** Names: [unicode.IsDigit] on a byte and the sanitizer *)

Definition is_digit (c : ascii) : bool :=
  let n := nat_of_ascii c in ((48 <=? n) && (n <=? 57))%nat.

Definition is_alpha (c : ascii) : bool :=
  let n := nat_of_ascii c in
  (((65 <=? n) && (n <=? 90)) || ((97 <=? n) && (n <=? 122)))%nat.

(** Characters of a BIRD protocol name: letters, digits and [_]. *)
Definition is_ident_char (c : ascii) : bool :=
  is_alpha c || is_digit c || (Ascii.eqb c "_"%char).

(** Modelled from the spec: [sanitize] (not under src/). The spec says
    only that sanitization "maps/strips any character not valid in the
    target identifier grammar". [repl c] says what happens to an invalid
    character [c]: [Some c'] maps it to [c'], [None] strips it. Valid
    characters are kept. *)
Fixpoint sanitize (repl : ascii -> option ascii) (s : string) : string :=
  match s with
  | EmptyString => EmptyString
  | String c s' =>
      if is_ident_char c then String c (sanitize repl s')
      else match repl c with
           | Some c' => String c' (sanitize repl s')
           | None => sanitize repl s'
           end
  end.

(** Lines 115-120: [unicode.IsDigit(rune(peerName[0]))] selects the
    ["PEER_"] prefix. For a byte, [unicode.IsDigit] holds exactly on
    ['0'..'9'] (no Latin-1 code point is a decimal digit). Indexing the
    empty string panics: [None]. *)
Definition protocol_name (repl : ascii -> option ascii) (peerName : string)
  : option string :=
  match peerName with
  | EmptyString => None
  | String c _ =>
      if is_digit c then Some ("PEER_" ++ sanitize repl peerName)
      else Some (sanitize repl peerName)
  end.

(* ------------------------------------------------------------------ *)
(** ** The glob [AS*.conf] *)

Fixpoint has_prefix (p s : string) : bool :=
  match p, s with
  | EmptyString, _ => true
  | String a p', String b s' => Ascii.eqb a b && has_prefix p' s'
  | String _ _, EmptyString => false
  end.

Definition rev_string (s : string) : string :=
  string_of_list_ascii (rev (list_ascii_of_string s)).

Definition has_suffix (p s : string) : bool :=
  has_prefix (rev_string p) (rev_string s).

(** [filepath.Match("AS*.conf", name)] for a file name (no ['/']): the
    literal ["AS"], any sequence, the literal [".conf"]. *)
Definition match_AS_conf (name : string) : bool :=
  has_prefix "AS" name && has_suffix ".conf" name
  && (7 <=? String.length name)%nat.

(** [sort.Strings]: byte-wise lexicographic order ([String.leb] compares
    characters by their code). *)
Fixpoint insert_string (x : string) (l : list string) : list string :=
  match l with
  | [] => [x]
  | y :: l' => if String.leb x y then x :: l else y :: insert_string x l'
  end.

Definition sort_strings (l : list string) : list string :=
  foldr insert_string [] l.

(** [glob(dir, "AS*.conf", m)] of path/filepath: the names of the entries
    of [dir], sorted, that match the file pattern, joined to [dir]. A path
    that is not a directory has no entries. *)
Definition glob_in_dir (d : string) (fs : fsys) : list (string * string) :=
  (fun n => (d, n)) <$>
    sort_strings (filter (fun n => match_AS_conf n = true)
      (snd <$> filter (fun k => k.1 = d) (fst <$> map_to_list (files fs)))).

(** [filepath.Glob(path.Join(dir, "AS*.conf"))] once the directory part
    has been expanded to the list [ds] of paths it matches (see
    [glob_dirs] below): each path is listed in turn. *)
Definition glob_AS_conf (ds : list string) (fs : fsys) : list (string * string) :=
  ds ≫= fun d => glob_in_dir d fs.

(* ------------------------------------------------------------------ *)
(** ** The executable part of [main] (lines 81-222) *)

Section Main.

(** The sanitizer's treatment of invalid characters (see [sanitize]). *)
Variable repl : ascii -> option ascii.

(** [globalTemplate.ExecuteTemplate(globalFile, "global.tmpl",
    globalConfig)]: the template files are not under src/, so the result
    of executing the global template is a parameter. *)
Variable render_global : config -> render_result.

(** The directory part of [filepath.Glob]: the pattern
    [path.Join(dir, "AS*.conf")] is checked with [Match(pattern, "")] and
    split into [dir] and ["AS*.conf"]. [None] is [ErrBadPattern] (a
    malformed [[...]] class or a trailing backslash in [dir]). Otherwise
    the result is the list of paths [dir] matches, in [Glob]'s order: [dir]
    itself when it has no metacharacter ([*?[\]), the existing paths that
    match it when it has one. The directory tree is fixed during the run,
    so the result depends on [dir] only. *)
Variable glob_dirs : string -> option (list string).

(** A step either lets [main] go on with the new file system or ends the
    run with an outcome (the file system as it is at that moment). *)
Inductive step :=
  | Continue (fs : fsys)
  | Stop (o : outcome) (fs : fsys).

(** Lines 103-107: [os.Remove] each globbed file in [Glob]'s order; the
    first failure is fatal, after the earlier files have been removed. *)
Fixpoint remove_files (ks : list (string * string)) (fs : fsys) : step :=
  match ks with
  | [] => Continue fs
  | k :: ks' =>
      if remove_ok k fs then remove_files ks' (fs_delete k fs)
      else Stop (Fatal "Removing old config files") fs
  end.

(** Lines 81-110. [os.Create] opens [bird.conf] truncated (or fails), the
    global template is executed straight into the file, [filepath.Glob]
    is taken in [BirdSocket] as the code writes it (a malformed pattern is
    fatal, line 101), and the matches are removed. A dry run skips all of
    it. *)
Definition write_global_and_clean (dryRun : bool) (cfg : config) (fs : fsys)
  : step :=
  if dryRun then Continue fs
  else
    if create_ok (BirdDirectory cfg, "bird.conf") fs then
      let fs1 := fs_create (BirdDirectory cfg, "bird.conf") fs in
      match render_global cfg with
      | RenderErr written err =>
          Stop (Fatal ("Execute global template: " ++ err))
               (fs_write (BirdDirectory cfg, "bird.conf") written fs1)
      | RenderOk out =>
          let fs2 := fs_write (BirdDirectory cfg, "bird.conf") out fs1 in
          match glob_dirs (BirdSocket cfg) with
          | None => Stop (Fatal "syntax error in pattern") fs2
          | Some ds => remove_files (glob_AS_conf ds fs2) fs2
          end
      end
    else Stop (Fatal "Create global BIRD output file") fs.

(** Lines 113-222: the loop over the peers. Each [*peer] is updated in
    place; indexing an empty name panics and ends the process. *)
Fixpoint peer_loop (ps : list (string * peer)) : outcome * list (string * peer) :=
  match ps with
  | [] => (Exited0, [])
  | (peerName, peerData) :: rest =>
      match protocol_name repl peerName with
      | None => (Panicked, ps)
      | Some pn =>
          let '(o, rest') := peer_loop rest in
          (o, (peerName, set_ProtocolName pn peerData) :: rest')
      end
  end.

Record run_result := mk_run_result {
  res_outcome : outcome;
  res_peers : list (string * peer);
  res_fs : fsys
}.

(** [main] from line 81 on, for the loaded configuration. Lines 38-79
    (flags, templates, reading and parsing the config) only read and may
    end the run before any file is touched. *)
Definition main_run (dryRun : bool) (cfg : config) (fs : fsys) : run_result :=
  match write_global_and_clean dryRun cfg fs with
  | Stop o fs' => mk_run_result o (Peers cfg) fs'
  | Continue fs' =>
      let '(o, ps) := peer_loop (Peers cfg) in mk_run_result o ps fs'
  end.

End Main.

(** Two readings of the spec's "maps/strips". *)
Definition repl_underscore (c : ascii) : option ascii := Some "_"%char.
Definition repl_strip (c : ascii) : option ascii := None.

(** [glob_dirs] on a path with no metacharacter: the path itself. All the
    concrete [BirdSocket] paths below are of this kind. *)
Definition glob_dirs_literal (dir : string) : option (list string) := Some [dir].

(** Concrete inputs. *)
Definition example_peer (asn : N) (ty set : string) (lim4 : N) : peer :=
  {| ProtocolName := ""; Asn := asn; Type_ := ty; AsSet := set;
     ImportLimit4 := lim4; ImportLimit6 := 0; NoPeeringDB := false;
     QueryTime := ""; PrefixSet4 := []; PrefixSet6 := [] |}.

Definition example_config (ps : list (string * peer)) : config :=
  {| RouterId := "192.0.2.1"; GlobalAsn := 65530;
     BirdDirectory := "/etc/bird"; BirdSocket := "/run/bird.ctl";
     IrrDb := "rr.ntt.net"; Peers := ps |}.

Definition example_fs (fl : gmap (string * string) string) : fsys :=
  mk_fsys fl {[ "/etc/bird"; "/run" ]} ∅ ∅.

Definition render_ok (cfg : config) : render_result :=
  RenderOk "router id 192.0.2.1;".

(** Executing [{{ .RouterId }} {{ .Missing }}] writes the first field and
    then fails on the missing one. *)
Definition render_missing_field (cfg : config) : render_result :=
  RenderErr "router id 192.0.2.1;"
    "template: global.tmpl:2:3: executing: can't evaluate field Missing".

Example main_run_example :
  res_outcome (main_run repl_underscore render_ok glob_dirs_literal false
    (example_config [("100foo", example_peer 65001 "peer" "" 0)])
    (example_fs {[ ("/etc/bird", "AS65002_OLD.conf") := "x" ]})) = Exited0.
Proof. vm_compute. reflexivity. Qed.

(** A read-only [bird.conf] cannot be opened by [os.Create], even in a
    writable directory. *)
Example main_run_readonly_bird_conf :
  res_outcome (main_run repl_underscore render_ok glob_dirs_literal false
    (example_config [])
    (mk_fsys {[ ("/etc/bird", "bird.conf") := "x" ]} {[ "/etc/bird" ]}
       {[ ("/etc/bird", "bird.conf") ]} ∅))
  = Fatal "Create global BIRD output file".
Proof. vm_compute. reflexivity. Qed.

(** [Glob] lists a directory in sorted order. *)
Example glob_in_dir_sorted :
  glob_in_dir "/d" (mk_fsys {[ ("/d", "AS2.conf") := ""; ("/d", "x") := "";
                               ("/d", "AS10.conf") := ""; ("/d", "AS1.conf") := "";
                               ("/e", "AS0.conf") := "" ]} ∅ ∅ ∅)
  = [("/d", "AS1.conf"); ("/d", "AS10.conf"); ("/d", "AS2.conf")].
Proof. vm_compute. reflexivity. Qed.

(* ------------------------------------------------------------------ *)
(** ** [main] from its first line *)

(** Modelled from the spec: the [cliFlags] struct (not under src/), with
    the fields main.go reads. [ConfigFile] is the config path split into
    (directory, file name), the key of the file system model. *)
Record cli_flags := mk_cli_flags {
  ConfigFile : string * string;
  DryRun : bool;
  NoConfigure : bool;
  ShowVersion : bool;
  Verbose : bool
}.

(** [strings.Contains(s, sub)]. *)
Fixpoint contains_substr (sub s : string) : bool :=
  has_prefix sub s ||
  match s with
  | EmptyString => false
  | String _ s' => contains_substr sub s'
  end.

(** How the process ends: an exit status with the message [log.Fatal]
    printed (if any), or a runtime panic. *)
Inductive exit_result :=
  | Exit (code : nat) (fatal_log : option string)
  | Panic.

Definition outcome_exit (o : outcome) : exit_result :=
  match o with
  | Exited0 => Exit 0 None
  | Fatal msg => Exit 1 (Some msg)
  | Panicked => Panic
  end.

Record main_result := mk_main_result {
  m_exit : exit_result;
  m_debug : bool;                        (* log level set to debug *)
  m_peers : option (list (string * peer)); (* peers, once loaded *)
  m_fs : fsys
}.

Section FullMain.

Variable repl : ascii -> option ascii.
Variable render_global : config -> render_result.
Variable glob_dirs : string -> option (list string).

(** [version], set by the build process ("devel" by default). *)
Variable version : string.

(** [loadTemplates(embedFs)]: [Some err] when it fails. *)
Variable loadTemplates_err : option string.

(** [loadConfig(configFile)] (not under src/): an error message or the
    parsed configuration. *)
Variable loadConfig : string -> string + config.

(** Lines 38-222. [args] is the result of [flags.ParseArgs]: an error
    message or the parsed flags. [ioutil.ReadFile] fails when the file
    does not exist. *)
Definition main_prog (args : string + cli_flags) (fs : fsys) : main_result :=
  match args with
  | inl err =>
      if contains_substr "Usage" err
      then mk_main_result (Exit 1 None) false None fs
      else mk_main_result (Exit 1 (Some err)) false None fs
  | inr fl =>
      let debug := String.eqb version "devel" || Verbose fl in
      if ShowVersion fl then mk_main_result (Exit 0 None) debug None fs
      else
        match loadTemplates_err with
        | Some err => mk_main_result (Exit 1 (Some err)) debug None fs
        | None =>
            match files fs !! ConfigFile fl with
            | None =>
                mk_main_result
                  (Exit 1 (Some "reading config file: no such file or directory"))
                  debug None fs
            | Some configFile =>
                match loadConfig configFile with
                | inl err => mk_main_result (Exit 1 (Some err)) debug None fs
                | inr globalConfig =>
                    let r := main_run repl render_global glob_dirs (DryRun fl)
                               globalConfig fs in
                    mk_main_result (outcome_exit (res_outcome r)) debug
                      (Some (res_peers r)) (res_fs r)
                end
            end
        end
  end.

End FullMain.

(* ------------------------------------------------------------------ *)
(** ** Lemmas about the file system and the glob *)

Definition step_fs (s : step) : fsys :=
  match s with Continue f => f | Stop _ f => f end.

Lemma create_write_files k v fs :
  files (fs_write k v (fs_create k fs)) = <[k := v]> (files fs).
Proof. unfold fs_write, fs_create. cbn [files]. apply insert_insert_eq. Qed.

Lemma remove_ok_delete_ne k k0 fs :
  k0 <> k -> remove_ok k (fs_delete k0 fs) = remove_ok k fs.
Proof.
  intros Hne. unfold remove_ok, fs_delete. cbn [files writable undeletable].
  rewrite lookup_delete_ne by exact Hne. reflexivity.
Qed.

Lemma remove_files_frame ks fs k :
  files (step_fs (remove_files ks fs)) !! k = None \/
  files (step_fs (remove_files ks fs)) !! k = files fs !! k.
Proof.
  revert fs; induction ks as [|k0 ks IH]; intros fs; simpl; [auto|].
  destruct (remove_ok k0 fs); simpl; [|auto].
  destruct (IH (fs_delete k0 fs)) as [Hn|Hn]; [auto|]. rewrite Hn. simpl.
  destruct (decide (k0 = k)) as [->|Hne].
  - rewrite lookup_delete_eq. auto.
  - rewrite lookup_delete_ne by done. auto.
Qed.


Lemma remove_files_stop ks fs o fs' :
  remove_files ks fs = Stop o fs' -> o = Fatal "Removing old config files".
Proof.
  revert fs; induction ks as [|k0 ks IH]; intros fs H; simpl in H; [done|].
  destruct (remove_ok k0 fs); [eauto|]. inversion H; done.
Qed.

Lemma remove_files_all_ok ks fs :
  NoDup ks -> (forall k, k ∈ ks -> remove_ok k fs = true) ->
  exists fs', remove_files ks fs = Continue fs'.
Proof.
  revert fs; induction ks as [|k0 ks IH]; intros fs Hnd Hok; simpl; [eauto|].
  apply NoDup_cons in Hnd as [Hk0 Hnd].
  rewrite (Hok k0) by set_solver. apply IH; [exact Hnd|].
  intros k Hk. rewrite remove_ok_delete_ne by set_solver. apply Hok. set_solver.
Qed.



Lemma remove_files_success ks fs fs' :
  remove_files ks fs = Continue fs' ->
  writable fs' = writable fs /\ readonly fs' = readonly fs /\
  undeletable fs' = undeletable fs /\
  forall k, files fs' !! k = if decide (k ∈ ks) then None else files fs !! k.
Proof.
  revert fs; induction ks as [|k0 ks IH]; intros fs E; simpl in E.
  - inversion E; subst. split_and!; [done..|]. intros k.
    rewrite decide_False by set_solver. done.
  - destruct (remove_ok k0 fs); [|discriminate E].
    destruct (IH _ E) as (Hw & Hr & Hu & Hk). split_and!; [exact Hw|exact Hr|exact Hu|].
    intros k. rewrite Hk. destruct (decide (k ∈ ks)) as [Hin|Hnin].
    + rewrite decide_True by set_solver. done.
    + unfold fs_delete. cbn [files]. destruct (decide (k0 = k)) as [->|Hne].
      * rewrite lookup_delete_eq, decide_True by set_solver. done.
      * rewrite lookup_delete_ne by done. rewrite decide_False by set_solver. done.
Qed.

Lemma insert_string_perm x l : insert_string x l ≡ₚ x :: l.
Proof.
  induction l as [|y l IH]; simpl; [done|].
  destruct (String.leb x y); [done|].
  rewrite IH. apply perm_swap.
Qed.

Lemma sort_strings_perm l : sort_strings l ≡ₚ l.
Proof.
  induction l as [|x l IH]; simpl; [done|].
  rewrite insert_string_perm. rewrite IH. done.
Qed.

Lemma names_in_dir_spec d fs n :
  n ∈ snd <$> filter (fun k => k.1 = d) (fst <$> map_to_list (files fs)) <->
  is_Some (files fs !! (d, n)).
Proof.
  rewrite list_elem_of_fmap. split.
  - intros [k [-> Hk]]. apply list_elem_of_filter in Hk as [Hd Hk].
    apply list_elem_of_fmap in Hk as [[k' v] [Heq Hkv]]. simpl in Heq. subst k'.
    apply elem_of_map_to_list in Hkv. destruct k as [d' n']. simpl in *. subst d'.
    eexists; exact Hkv.
  - intros [v Hv]. exists (d, n). split; [done|].
    apply list_elem_of_filter. split; [done|].
    apply list_elem_of_fmap. exists ((d, n), v). split; [done|].
    by apply elem_of_map_to_list.
Qed.

Lemma elem_of_glob_in_dir d fs k :
  k ∈ glob_in_dir d fs <->
  k.1 = d /\ match_AS_conf k.2 = true /\ is_Some (files fs !! k).
Proof.
  unfold glob_in_dir. rewrite list_elem_of_fmap. split.
  - intros [n [-> Hn]]. rewrite sort_strings_perm in Hn.
    apply list_elem_of_filter in Hn as [Hm Hn]. apply names_in_dir_spec in Hn.
    simpl. auto.
  - destruct k as [d' n]. simpl. intros (-> & Hm & Hk). exists n. split; [done|].
    rewrite sort_strings_perm. apply list_elem_of_filter. split; [exact Hm|].
    apply names_in_dir_spec. exact Hk.
Qed.

Lemma elem_of_glob_AS_conf ds fs k :
  k ∈ glob_AS_conf ds fs <->
  k.1 ∈ ds /\ match_AS_conf k.2 = true /\ is_Some (files fs !! k).
Proof.
  unfold glob_AS_conf. rewrite list_elem_of_bind. split.
  - intros [d [Hk Hd]]. apply elem_of_glob_in_dir in Hk as (<- & Hm & Hs). auto.
  - intros (Hd & Hm & Hs). exists k.1. split; [|exact Hd].
    apply elem_of_glob_in_dir. auto.
Qed.

Lemma NoDup_glob_in_dir d fs : NoDup (glob_in_dir d fs).
Proof.
  unfold glob_in_dir. apply NoDup_fmap_2; [intros x y; congruence|].
  rewrite sort_strings_perm. apply NoDup_filter.
  apply NoDup_fmap_2_strong.
  - intros k1 k2 H1 H2 Heq.
    apply list_elem_of_filter in H1 as [Hd1 _]. apply list_elem_of_filter in H2 as [Hd2 _].
    destruct k1, k2; simpl in *; congruence.
  - apply NoDup_filter. apply NoDup_fst_map_to_list.
Qed.

Lemma NoDup_glob_AS_conf ds fs : NoDup ds -> NoDup (glob_AS_conf ds fs).
Proof.
  induction ds as [|d ds IH]; intros Hnd; [constructor|].
  apply NoDup_cons in Hnd as [Hd Hnd].
  change (NoDup (glob_in_dir d fs ++ glob_AS_conf ds fs)).
  apply NoDup_app. split_and!; [apply NoDup_glob_in_dir| |exact (IH Hnd)].
  intros k Hk Hk'. apply elem_of_glob_in_dir in Hk as (Hk & _).
  apply elem_of_glob_AS_conf in Hk' as (Hk' & _). subst d. contradiction.
Qed.

Lemma glob_AS_conf_empty ds fs :
  (forall k, k.1 ∈ ds -> match_AS_conf k.2 = true -> files fs !! k = None) ->
  glob_AS_conf ds fs = [].
Proof.
  intros Hnone. destruct (glob_AS_conf ds fs) as [|k ks] eqn:E; [done|].
  exfalso. assert (Hk : k ∈ glob_AS_conf ds fs) by (rewrite E; left).
  apply elem_of_glob_AS_conf in Hk as (Hd & Hm & Hs).
  rewrite (Hnone k Hd Hm) in Hs. destruct Hs as [? Hs]. discriminate Hs.
Qed.


(* ------------------------------------------------------------------ *)
(** ** Lemmas about the steps *)

(** Apart from [bird.conf] in the output directory, the steps before the
    loop write nothing: every other file is unchanged or removed. *)
Lemma write_global_and_clean_frame render_global glob_dirs dryRun cfg fs k :
  k <> (BirdDirectory cfg, "bird.conf") ->
  files (step_fs (write_global_and_clean render_global glob_dirs dryRun cfg fs)) !! k
    = None \/
  files (step_fs (write_global_and_clean render_global glob_dirs dryRun cfg fs)) !! k
    = files fs !! k.
Proof.
  intros Hk. unfold write_global_and_clean.
  destruct dryRun; [simpl; auto|].
  destruct (create_ok _ fs); [|simpl; auto].
  destruct (render_global cfg) as [out|w e]; cbn [step_fs].
  - destruct (glob_dirs (BirdSocket cfg)) as [ds|]; cbn [step_fs].
    + match goal with
      | |- context [remove_files ?ks ?f] =>
          destruct (remove_files_frame ks f k) as [H'|H']; [auto|]
      end.
      rewrite H', create_write_files. rewrite lookup_insert_ne by congruence. auto.
    + rewrite create_write_files. rewrite lookup_insert_ne by congruence. auto.
  - rewrite create_write_files. rewrite lookup_insert_ne by congruence. auto.
Qed.

Lemma write_global_and_clean_stop render_global glob_dirs dryRun cfg fs o fs' :
  write_global_and_clean render_global glob_dirs dryRun cfg fs = Stop o fs' ->
  exists msg, o = Fatal msg.
Proof.
  unfold write_global_and_clean. destruct dryRun; [discriminate|].
  destruct (create_ok _ fs); [|intros E; inversion E; eauto].
  destruct (render_global cfg); [|intros E; inversion E; eauto].
  destruct (glob_dirs (BirdSocket cfg)); [|intros E; inversion E; eauto].
  intros E. apply remove_files_stop in E. eauto.
Qed.

(** The steps before the loop let the run go on when [bird.conf] can be
    opened, the global template executes, the glob pattern is well formed
    and every file it matches can be removed. *)
Lemma write_global_and_clean_continues render_global glob_dirs dryRun cfg fs :
  dryRun = true \/
  ((exists out, render_global cfg = RenderOk out) /\
   create_ok (BirdDirectory cfg, "bird.conf") fs = true /\
   exists ds, glob_dirs (BirdSocket cfg) = Some ds /\ NoDup ds /\
     forall k v, k.1 ∈ ds -> match_AS_conf k.2 = true -> files fs !! k = Some v ->
       k.1 ∈ writable fs /\ k ∉ undeletable fs) ->
  exists fs', write_global_and_clean render_global glob_dirs dryRun cfg fs = Continue fs'.
Proof.
  intros [->|[[out Hout] [Hc [ds [Hg [Hnd Hrm]]]]]]; [simpl; eauto|].
  destruct dryRun; [simpl; eauto|].
  unfold write_global_and_clean. rewrite Hc, Hout, Hg.
  apply remove_files_all_ok; [apply NoDup_glob_AS_conf, Hnd|].
  intros k Hk. apply elem_of_glob_AS_conf in Hk as (Hd & Hm & [v Hv]).
  assert (Hne : (BirdDirectory cfg, "bird.conf") <> k).
  { intros <-. discriminate Hm. }
  unfold remove_ok. rewrite Hv.
  rewrite create_write_files in Hv. rewrite lookup_insert_ne in Hv by exact Hne.
  destruct (Hrm k v Hd Hm Hv) as [Hw Hu].
  unfold fs_write, fs_create. cbn [writable undeletable].
  rewrite !bool_decide_eq_true_2 by assumption. reflexivity.
Qed.

Lemma write_global_and_clean_success render_global glob_dirs cfg fs fs1 :
  write_global_and_clean render_global glob_dirs false cfg fs = Continue fs1 ->
  exists out ds, render_global cfg = RenderOk out /\
    glob_dirs (BirdSocket cfg) = Some ds /\
    create_ok (BirdDirectory cfg, "bird.conf") fs = true /\
    writable fs1 = writable fs /\
    readonly fs1 = readonly fs ∖ {[(BirdDirectory cfg, "bird.conf")]} /\
    undeletable fs1 = undeletable fs /\
    forall k, files fs1 !! k =
      if decide (k.1 ∈ ds /\ match_AS_conf k.2 = true) then None
      else if decide (k = (BirdDirectory cfg, "bird.conf")) then Some out
      else files fs !! k.
Proof.
  unfold write_global_and_clean. destruct (create_ok _ fs) eqn:Hc; [|discriminate].
  destruct (render_global cfg) as [out|w e]; [|discriminate].
  destruct (glob_dirs (BirdSocket cfg)) as [ds|] eqn:Hg; [|discriminate].
  set (fs2 := fs_write (BirdDirectory cfg, "bird.conf") out
                (fs_create (BirdDirectory cfg, "bird.conf") fs)).
  intros E. destruct (remove_files_success _ _ _ E) as (Hw & Hr & Hu & Hk).
  exists out, ds. split_and!; [done|done|done|exact Hw|exact Hr|exact Hu|].
  intros k. rewrite Hk.
  assert (H2 : files fs2 !! k =
    if decide (k = (BirdDirectory cfg, "bird.conf")) then Some out else files fs !! k).
  { subst fs2. rewrite create_write_files.
    case_decide as Heq; [subst k; apply lookup_insert_eq|].
    rewrite lookup_insert_ne by congruence. done. }
  destruct (decide (k.1 ∈ ds /\ match_AS_conf k.2 = true)) as [Hm|Hm].
  - destruct (decide (k ∈ glob_AS_conf ds fs2)) as [Hin|Hin]; [done|].
    rewrite H2.
    destruct (decide (k = (BirdDirectory cfg, "bird.conf"))) as [Heq|Heq];
      [subst k; destruct Hm as [_ Hm]; discriminate Hm|].
    destruct (files fs !! k) as [v|] eqn:Hv; [|done].
    exfalso. apply Hin. apply elem_of_glob_AS_conf. split_and!; try tauto.
    rewrite H2. try rewrite decide_False by exact Heq. try rewrite Hv. eauto.
  - rewrite decide_False; [exact H2|].
    rewrite elem_of_glob_AS_conf. tauto.
Qed.

Lemma set_ProtocolName_same p : set_ProtocolName (ProtocolName p) p = p.
Proof. destruct p; reflexivity. Qed.

Lemma set_ProtocolName_twice v w p :
  set_ProtocolName v (set_ProtocolName w p) = set_ProtocolName v p.
Proof. destruct p; reflexivity. Qed.

(** The loop keeps the names and changes nothing but [ProtocolName]. *)
Lemma peer_loop_frame repl ps :
  Forall2 (fun a b => a.1 = b.1 /\ b.2 = set_ProtocolName (ProtocolName b.2) a.2)
    ps (peer_loop repl ps).2.
Proof.
  induction ps as [|[n p] ps IH]; simpl; [constructor|].
  destruct (protocol_name repl n) as [pn|].
  - destruct (peer_loop repl ps) as [o ps'] eqn:E. simpl in *.
    constructor; [|exact IH]. simpl. split; [done|]. reflexivity.
  - simpl. constructor.
    + simpl. rewrite set_ProtocolName_same. done.
    + clear IH. induction ps as [|[n' p'] ps IH']; constructor; [|done].
      simpl. rewrite set_ProtocolName_same. done.
Qed.

Lemma peer_loop_exited repl ps :
  (forall n p, In (n, p) ps -> n <> "") -> (peer_loop repl ps).1 = Exited0.
Proof.
  induction ps as [|[n p] ps IH]; intros Hne; simpl; [done|].
  destruct n as [|c s]; [exfalso; apply (Hne "" p); [left|]; reflexivity|].
  simpl. destruct (peer_loop repl ps) as [o ps'] eqn:E.
  assert (Ho : o = Exited0).
  { apply IH.
    intros n' p' Hin. eapply Hne. right. exact Hin. }
  destruct (is_digit c); simpl; exact Ho.
Qed.

Lemma peer_loop_panics repl ps p :
  In ("", p) ps -> (peer_loop repl ps).1 = Panicked.
Proof.
  induction ps as [|[n q] ps IH]; intros Hin; simpl; [destruct Hin|].
  destruct n as [|c s]; [reflexivity|].
  destruct Hin as [Heq|Hin]; [discriminate Heq|].
  simpl. destruct (peer_loop repl ps) as [o ps'] eqn:E.
  assert (Ho : o = Panicked).
  { apply IH. exact Hin. }
  destruct (is_digit c); simpl; exact Ho.
Qed.

Lemma peer_loop_outcome repl ps :
  (peer_loop repl ps).1 =
  if existsb (fun np => String.eqb np.1 "") ps then Panicked else Exited0.
Proof.
  induction ps as [|[n p] ps IH]; simpl; [done|].
  destruct n as [|c s]; simpl; [done|].
  destruct (peer_loop repl ps) as [o ps'] eqn:E.
  destruct (is_digit c); exact IH.
Qed.

Lemma peer_loop_exited_names repl ps :
  (peer_loop repl ps).1 = Exited0 ->
  Forall2 (fun a b => a.1 = b.1 /\ protocol_name repl a.1 = Some (ProtocolName b.2) /\
                      b.2 = set_ProtocolName (ProtocolName b.2) a.2)
    ps (peer_loop repl ps).2.
Proof.
  induction ps as [|[n p] ps IH]; simpl; [constructor|].
  destruct (protocol_name repl n) as [pn|] eqn:Hpn; [|discriminate].
  destruct (peer_loop repl ps) as [o ps'] eqn:E. simpl. intros Ho.
  constructor; [|apply IH; exact Ho]. simpl. auto.
Qed.

Lemma existsb_Permutation {A} (f : A -> bool) (l l' : list A) :
  Permutation l l' -> existsb f l = existsb f l'.
Proof.
  intros HP. apply Bool.eq_true_iff_eq. rewrite !existsb_exists.
  split; intros [x [Hx Hf]]; exists x; split; try exact Hf.
  - eapply Permutation_in; [exact HP|exact Hx].
  - eapply Permutation_in; [symmetry; exact HP|exact Hx].
Qed.

Lemma main_run_fs repl render_global glob_dirs dryRun cfg fs :
  res_fs (main_run repl render_global glob_dirs dryRun cfg fs) =
  step_fs (write_global_and_clean render_global glob_dirs dryRun cfg fs).
Proof.
  unfold main_run. destruct (write_global_and_clean _ _ _ _ _); [|done].
  destruct (peer_loop repl (Peers cfg)). done.
Qed.

Lemma main_run_continue repl render_global glob_dirs dryRun cfg fs fs' :
  write_global_and_clean render_global glob_dirs dryRun cfg fs = Continue fs' ->
  main_run repl render_global glob_dirs dryRun cfg fs =
  mk_run_result (peer_loop repl (Peers cfg)).1 (peer_loop repl (Peers cfg)).2 fs'.
Proof.
  intros E. unfold main_run. rewrite E. destruct (peer_loop repl (Peers cfg)). done.
Qed.

Lemma main_run_stop repl render_global glob_dirs dryRun cfg fs o fs' :
  write_global_and_clean render_global glob_dirs dryRun cfg fs = Stop o fs' ->
  main_run repl render_global glob_dirs dryRun cfg fs = mk_run_result o (Peers cfg) fs'.
Proof. intros E. unfold main_run. rewrite E. done. Qed.

Lemma main_run_exited_continue repl render_global glob_dirs dryRun cfg fs :
  res_outcome (main_run repl render_global glob_dirs dryRun cfg fs) = Exited0 ->
  exists fs', write_global_and_clean render_global glob_dirs dryRun cfg fs = Continue fs'.
Proof.
  destruct (write_global_and_clean render_global glob_dirs dryRun cfg fs) as [fs'|o fs']
    eqn:E; [eauto|].
  rewrite (main_run_stop _ _ _ _ _ _ _ _ E). simpl. intros ->.
  destruct (write_global_and_clean_stop _ _ _ _ _ _ _ E). discriminate.
Qed.

Lemma main_run_peers_frame repl render_global glob_dirs dryRun cfg fs :
  Forall2 (fun a b => a.1 = b.1 /\ b.2 = set_ProtocolName (ProtocolName b.2) a.2)
    (Peers cfg) (res_peers (main_run repl render_global glob_dirs dryRun cfg fs)).
Proof.
  unfold main_run. destruct (write_global_and_clean _ _ _ _ _).
  - pose proof (peer_loop_frame repl (Peers cfg)) as H.
    destruct (peer_loop repl (Peers cfg)). exact H.
  - simpl. induction (Peers cfg) as [|[n p] ps IH]; constructor; [|exact IH].
    simpl. rewrite set_ProtocolName_same. done.
Qed.

(* ------------------------------------------------------------------ *)
(** ** The output directory after a successful run *)

Definition empty_fs : fsys := example_fs ∅.

Definition current_config : config :=
  example_config [("EXAMPLE", example_peer 65001 "peer" "AS-EXAMPLE" 0)].

(** C1 (counterexample). A successful non-dry run on an empty file system
    with one configured peer, [EXAMPLE] (AS65001), leaves no [AS*.conf]
    file in the output directory: per-peer rendering (line 182) is
    commented out, so no file is generated for a current peer. *)
Lemma C1_no_peer_file_generated :
  res_outcome (main_run repl_underscore render_ok glob_dirs_literal false
                 current_config empty_fs) = Exited0 /\
  glob_in_dir "/etc/bird"
    (res_fs (main_run repl_underscore render_ok glob_dirs_literal false
               current_config empty_fs)) = [].
Proof. vm_compute. split; reflexivity. Qed.

(** C1 (amended). After a successful non-dry run, [bird.conf] in the
    output directory holds the rendered global template, and no other file
    holds contents it did not hold before: no per-peer file is generated.
    Which old [AS*.conf] files are removed is not stated here. *)
Theorem main_run_success_writes_only_global repl render_global glob_dirs cfg fs :
  res_outcome (main_run repl render_global glob_dirs false cfg fs) = Exited0 ->
  (exists out, render_global cfg = RenderOk out /\
     files (res_fs (main_run repl render_global glob_dirs false cfg fs))
       !! (BirdDirectory cfg, "bird.conf") = Some out) /\
  (forall k v, k <> (BirdDirectory cfg, "bird.conf") ->
     files (res_fs (main_run repl render_global glob_dirs false cfg fs)) !! k = Some v ->
     files fs !! k = Some v).
Proof.
  intros Hex. split.
  - destruct (main_run_exited_continue _ _ _ _ _ _ Hex) as [fs1 E].
    destruct (write_global_and_clean_success _ _ _ _ _ E)
      as (out & ds & Hr & _ & _ & _ & _ & _ & Hk).
    exists out. split; [exact Hr|].
    rewrite main_run_fs, E. simpl. rewrite Hk.
    rewrite decide_False by (simpl; intros [_ Hm]; discriminate Hm).
    rewrite decide_True by reflexivity. reflexivity.
  - intros k v Hk Hv. rewrite main_run_fs in Hv.
    destruct (write_global_and_clean_frame render_global glob_dirs false cfg fs k Hk)
      as [H|H]; rewrite H in Hv; [discriminate Hv|exact Hv].
Qed.

Lemma main_run_success_writes_only_global_witness :
  res_outcome (main_run repl_underscore render_ok glob_dirs_literal false
                 current_config empty_fs) = Exited0 /\
  ((exists out, render_ok current_config = RenderOk out /\
     files (res_fs (main_run repl_underscore render_ok glob_dirs_literal false
                      current_config empty_fs))
       !! (BirdDirectory current_config, "bird.conf") = Some out) /\
   (forall k v, k <> (BirdDirectory current_config, "bird.conf") ->
     files (res_fs (main_run repl_underscore render_ok glob_dirs_literal false
                      current_config empty_fs)) !! k = Some v ->
     files empty_fs !! k = Some v)).
Proof.
  assert (H : res_outcome (main_run repl_underscore render_ok glob_dirs_literal false
                             current_config empty_fs) = Exited0)
    by (vm_compute; reflexivity).
  split; [exact H|]. exact (main_run_success_writes_only_global _ _ _ _ _ H).
Defined.

(* ------------------------------------------------------------------ *)
(** ** Dry run *)

(** C2. A dry run leaves the file system exactly as it was, while the
    per-peer loop still runs: outcome and peers are those of [peer_loop]. *)
Theorem dry_run_no_fs_mutation repl render_global glob_dirs cfg fs :
  res_fs (main_run repl render_global glob_dirs true cfg fs) = fs /\
  (res_outcome (main_run repl render_global glob_dirs true cfg fs),
   res_peers (main_run repl render_global glob_dirs true cfg fs))
    = peer_loop repl (Peers cfg).
Proof.
  unfold main_run. simpl. destruct (peer_loop repl (Peers cfg)). split; reflexivity.
Qed.

(* ------------------------------------------------------------------ *)
(** ** Failure of the global template *)

Definition prior_fs : fsys :=
  example_fs {[ ("/etc/bird", "bird.conf") := "router id 192.0.2.9; protocol device {}" ]}.

(** C3 (counterexample). Executing the global template fails on a missing
    field after writing its first line: the run is fatal, and [bird.conf]
    is neither absent nor in its prior state but holds the partial
    output. *)
Lemma C3_partial_global_file :
  (exists msg,
     res_outcome (main_run repl_underscore render_missing_field glob_dirs_literal false
                    current_config prior_fs) = Fatal msg) /\
  files (res_fs (main_run repl_underscore render_missing_field glob_dirs_literal false
                   current_config prior_fs))
    !! ("/etc/bird", "bird.conf") = Some "router id 192.0.2.1;" /\
  files prior_fs !! ("/etc/bird", "bird.conf") <> Some "router id 192.0.2.1;".
Proof.
  split; [eexists; vm_compute; reflexivity|].
  split; [vm_compute; reflexivity|]. vm_compute. discriminate.
Qed.

(** C3 (amended). When [os.Create] opens [bird.conf] (an existing file the
    process may write, or a new file in a writable directory) and the
    global template then fails on a non-dry run, the run ends fatally
    before any peer is processed, and [bird.conf] holds exactly what the
    template wrote before failing, in place of its prior contents; no
    other file changes. *)
Theorem global_render_failure_leaves_partial repl render_global glob_dirs cfg fs
    written err :
  render_global cfg = RenderErr written err ->
  create_ok (BirdDirectory cfg, "bird.conf") fs = true ->
  res_outcome (main_run repl render_global glob_dirs false cfg fs)
    = Fatal ("Execute global template: " ++ err) /\
  res_peers (main_run repl render_global glob_dirs false cfg fs) = Peers cfg /\
  files (res_fs (main_run repl render_global glob_dirs false cfg fs))
    = <[(BirdDirectory cfg, "bird.conf") := written]> (files fs).
Proof.
  intros Hr Hc. unfold main_run, write_global_and_clean.
  rewrite Hc, Hr. cbn [res_outcome res_peers res_fs].
  split_and!; [reflexivity|reflexivity|apply create_write_files].
Qed.

Lemma global_render_failure_leaves_partial_witness :
  render_missing_field current_config =
    RenderErr "router id 192.0.2.1;"
      "template: global.tmpl:2:3: executing: can't evaluate field Missing" /\
  create_ok (BirdDirectory current_config, "bird.conf") prior_fs = true /\
  res_outcome (main_run repl_underscore render_missing_field glob_dirs_literal false
                 current_config prior_fs)
    = Fatal ("Execute global template: " ++
             "template: global.tmpl:2:3: executing: can't evaluate field Missing") /\
  res_peers (main_run repl_underscore render_missing_field glob_dirs_literal false
               current_config prior_fs) = Peers current_config /\
  files (res_fs (main_run repl_underscore render_missing_field glob_dirs_literal false
                   current_config prior_fs))
    = <[(BirdDirectory current_config, "bird.conf") := "router id 192.0.2.1;"]>
        (files prior_fs).
Proof.
  assert (Hr : render_missing_field current_config =
    RenderErr "router id 192.0.2.1;"
      "template: global.tmpl:2:3: executing: can't evaluate field Missing")
    by reflexivity.
  assert (Hc : create_ok (BirdDirectory current_config, "bird.conf") prior_fs = true)
    by (vm_compute; reflexivity).
  split; [exact Hr|]. split; [exact Hc|].
  exact (global_render_failure_leaves_partial repl_underscore render_missing_field
           glob_dirs_literal current_config prior_fs _ _ Hr Hc).
Defined.

(* ------------------------------------------------------------------ *)
(** ** Filtering policy and registry enrichment *)

Definition unfiltered_config : config :=
  example_config [("EXAMPLE", example_peer 65010 "peer" "" 0);
                  ("DOWNSTREAM", example_peer 65011 "downstream" "" 0)].

(** C4 (counterexample). A [peer] and a [downstream] session, both with an
    empty AS-SET: the non-dry run exits normally (and writes no per-peer
    file). *)
Lemma C4_unfiltered_peer_run_succeeds :
  res_outcome (main_run repl_underscore render_ok glob_dirs_literal false
                 unfiltered_config empty_fs) = Exited0 /\
  glob_in_dir "/etc/bird"
    (res_fs (main_run repl_underscore render_ok glob_dirs_literal false
               unfiltered_config empty_fs)) = [].
Proof. vm_compute. split; reflexivity. Qed.

(** C4 (amended). Session types and AS-SETs play no part in the run. When
    no peer name is empty and the steps before the loop succeed, the run
    exits normally whatever the peers' types and AS-SETs. Those steps
    succeed on a dry run, or when [bird.conf] can be opened, the global
    template executes, the [BirdSocket] glob pattern is well formed and
    every file it matches can be removed. The run writes no file but the
    global [bird.conf], so no per-peer artifact is written. *)
Theorem run_succeeds_without_as_set_check repl render_global glob_dirs dryRun cfg fs :
  (forall n p, In (n, p) (Peers cfg) -> n <> "") ->
  dryRun = true \/
  ((exists out, render_global cfg = RenderOk out) /\
   create_ok (BirdDirectory cfg, "bird.conf") fs = true /\
   exists ds, glob_dirs (BirdSocket cfg) = Some ds /\ NoDup ds /\
     forall k v, k.1 ∈ ds -> match_AS_conf k.2 = true -> files fs !! k = Some v ->
       k.1 ∈ writable fs /\ k ∉ undeletable fs) ->
  res_outcome (main_run repl render_global glob_dirs dryRun cfg fs) = Exited0 /\
  (forall k, k <> (BirdDirectory cfg, "bird.conf") ->
     files (res_fs (main_run repl render_global glob_dirs dryRun cfg fs)) !! k = None \/
     files (res_fs (main_run repl render_global glob_dirs dryRun cfg fs)) !! k
       = files fs !! k).
Proof.
  intros Hnames Hpre.
  destruct (write_global_and_clean_continues render_global glob_dirs dryRun cfg fs Hpre)
    as [fs' E].
  split.
  - rewrite (main_run_continue _ _ _ _ _ _ _ E). simpl.
    apply peer_loop_exited. exact Hnames.
  - intros k Hk. rewrite main_run_fs. apply write_global_and_clean_frame. exact Hk.
Qed.

Lemma run_succeeds_without_as_set_check_witness :
  res_outcome (main_run repl_underscore render_ok glob_dirs_literal false
                 unfiltered_config empty_fs) = Exited0 /\
  (forall k, k <> (BirdDirectory unfiltered_config, "bird.conf") ->
     files (res_fs (main_run repl_underscore render_ok glob_dirs_literal false
                      unfiltered_config empty_fs)) !! k = None \/
     files (res_fs (main_run repl_underscore render_ok glob_dirs_literal false
                      unfiltered_config empty_fs)) !! k = files empty_fs !! k).
Proof.
  apply run_succeeds_without_as_set_check.
  - intros n p Hin. simpl in Hin.
    destruct Hin as [Hin|[Hin|[]]]; inversion Hin; discriminate.
  - right. split; [eexists; reflexivity|]. split; [vm_compute; reflexivity|].
    exists ["/run/bird.ctl"]. split; [reflexivity|]. split; [repeat constructor; set_solver|].
    intros k v _ _ Hv. unfold empty_fs, example_fs in Hv. cbn [files] in Hv.
    rewrite lookup_empty in Hv. discriminate Hv.
Defined.

(** C5 (counterexample). A peer with unset (zero) [ImportLimit4]: after
    the run the limit is still 0, not a registry value such as 500. *)
Lemma C5_unset_limit_not_filled :
  map (fun np => ImportLimit4 np.2)
    (res_peers (main_run repl_underscore render_ok glob_dirs_literal false
                  current_config empty_fs))
    = [0%N] /\ 0%N <> 500%N.
Proof. split; [vm_compute; reflexivity | discriminate]. Qed.

(** C5 (amended). No registry enrichment runs: every peer's import limits
    are exactly as loaded, unset (0) or explicit. *)
Theorem import_limits_as_loaded repl render_global glob_dirs dryRun cfg fs :
  Forall2 (fun a b => ImportLimit4 b.2 = ImportLimit4 a.2 /\
                      ImportLimit6 b.2 = ImportLimit6 a.2)
    (Peers cfg) (res_peers (main_run repl render_global glob_dirs dryRun cfg fs)).
Proof.
  eapply Forall2_impl; [apply main_run_peers_frame|].
  intros a b [_ ->]. split; reflexivity.
Qed.

Definition registry_less_config : config :=
  example_config [("EXAMPLE", example_peer 65000 "peer" "" 0)].

(** C6 (counterexample). A peer of ASN 65000 with no AS-SET: after the run
    its AS-SET is still empty, not ["AS65000"] (nor any registry value). *)
Lemma C6_as_set_not_resolved :
  map (fun np => AsSet np.2)
    (res_peers (main_run repl_underscore render_ok glob_dirs_literal false
                  registry_less_config empty_fs))
    = [""] /\ "" <> "AS65000".
Proof. split; [vm_compute; reflexivity | discriminate]. Qed.

(** C6 (amended). No AS-SET resolution runs: every peer's AS-SET is
    exactly as loaded; a manual one is kept and an empty one stays
    empty. *)
Theorem as_set_as_loaded repl render_global glob_dirs dryRun cfg fs :
  Forall2 (fun a b => AsSet b.2 = AsSet a.2)
    (Peers cfg) (res_peers (main_run repl render_global glob_dirs dryRun cfg fs)).
Proof.
  eapply Forall2_impl; [apply main_run_peers_frame|].
  intros a b [_ ->]. reflexivity.
Qed.

(* ------------------------------------------------------------------ *)
(** ** The empty peer name *)

(** C9. [peerName[0]] has no guard: the name classification is undefined
    on [""], and a run whose config declares the peer name [""] panics
    once it reaches the loop. *)
Theorem empty_peer_name_panics repl render_global glob_dirs dryRun cfg fs p :
  In ("", p) (Peers cfg) ->
  (exists fs', write_global_and_clean render_global glob_dirs dryRun cfg fs = Continue fs') ->
  protocol_name repl "" = None /\
  res_outcome (main_run repl render_global glob_dirs dryRun cfg fs) = Panicked.
Proof.
  intros Hin [fs' E]. split; [reflexivity|].
  rewrite (main_run_continue _ _ _ _ _ _ _ E). simpl.
  eapply peer_loop_panics. exact Hin.
Qed.

Definition empty_name_config : config :=
  example_config [("EXAMPLE", example_peer 65001 "peer" "AS-EXAMPLE" 0);
                  ("", example_peer 65002 "upstream" "" 0)].

Lemma empty_peer_name_panics_witness :
  protocol_name repl_underscore "" = None /\
  res_outcome (main_run repl_underscore render_ok glob_dirs_literal true
                 empty_name_config empty_fs) = Panicked.
Proof.
  apply (empty_peer_name_panics _ _ _ _ _ _ (example_peer 65002 "upstream" "" 0)).
  - simpl. right. left. reflexivity.
  - eexists. reflexivity.
Defined.

(* ------------------------------------------------------------------ *)
(** ** What the run changes *)

(** C10. The run changes no peer field but [ProtocolName] (names, ASN,
    type, AS-SET, import limits, opt-out, timestamp and prefix sets stay
    as loaded), and it writes no file but the global [bird.conf]: no
    other file gets new contents. *)
Theorem main_run_only_sets_protocol_name repl render_global glob_dirs dryRun cfg fs :
  Forall2 (fun a b => a.1 = b.1 /\ b.2 = set_ProtocolName (ProtocolName b.2) a.2)
    (Peers cfg) (res_peers (main_run repl render_global glob_dirs dryRun cfg fs)) /\
  (forall k, k <> (BirdDirectory cfg, "bird.conf") ->
     files (res_fs (main_run repl render_global glob_dirs dryRun cfg fs)) !! k = None \/
     files (res_fs (main_run repl render_global glob_dirs dryRun cfg fs)) !! k
       = files fs !! k).
Proof.
  split; [apply main_run_peers_frame|].
  intros k Hk. rewrite main_run_fs. apply write_global_and_clean_frame. exact Hk.
Qed.

(* ------------------------------------------------------------------ *)
(** ** Protocol names under the two readings of "maps/strips" *)

Fixpoint all_ident (s : string) : bool :=
  match s with
  | EmptyString => true
  | String c s' => is_ident_char c && all_ident s'
  end.

Lemma sanitize_app repl a b :
  sanitize repl (a ++ b) = sanitize repl a ++ sanitize repl b.
Proof.
  induction a as [|c a IH]; simpl; [reflexivity|].
  destruct (is_ident_char c); [rewrite IH; reflexivity|].
  destruct (repl c); [rewrite IH|]; auto.
Qed.

Lemma sanitize_all_ident repl s : all_ident s = true -> sanitize repl s = s.
Proof.
  induction s as [|c s IH]; simpl; [reflexivity|].
  intros H. apply andb_prop in H as [Hc Hs]. rewrite Hc, IH by exact Hs.
  reflexivity.
Qed.

(** A digit-initial name gets the literal prefix, whatever the sanitizer
    does with invalid characters. *)
Lemma protocol_name_digit repl c s :
  is_digit c = true ->
  protocol_name repl (String c s) = Some ("PEER_" ++ sanitize repl (String c s)).
Proof. intros H. simpl. rewrite H. reflexivity. Qed.

Example protocol_name_100foo repl : protocol_name repl "100foo" = Some "PEER_100foo".
Proof. reflexivity. Qed.

(** Stripping reading: a stripped leading character can expose a digit,
    or leave nothing, and normalizing twice adds the prefix. *)
Example protocol_name_strip_leading_digit :
  protocol_name repl_strip "-1foo" = Some "1foo".
Proof. reflexivity. Qed.

Example protocol_name_strip_empty : protocol_name repl_strip "-" = Some "".
Proof. reflexivity. Qed.

Example protocol_name_strip_not_idempotent :
  protocol_name repl_strip "-1" = Some "1" /\
  protocol_name repl_strip "1" = Some "PEER_1".
Proof. split; reflexivity. Qed.

(** Mapping reading: when every invalid character is mapped to a valid
    non-digit character, the name is never digit-initial and normalizing
    is idempotent (in the option sense: [""] panics both times). *)
Section Mapping.
Variable repl : ascii -> option ascii.
Hypothesis repl_maps : forall c, exists c',
  repl c = Some c' /\ is_ident_char c' = true /\ is_digit c' = false.

Lemma sanitize_maps_all_ident s : all_ident (sanitize repl s) = true.
Proof.
  induction s as [|c s IH]; simpl; [reflexivity|].
  destruct (is_ident_char c) eqn:Hc; simpl; [rewrite Hc, IH; reflexivity|].
  destruct (repl_maps c) as [c' [-> [Hc' _]]]. simpl. rewrite Hc', IH. reflexivity.
Qed.

Lemma protocol_name_maps_idempotent x y :
  protocol_name repl x = Some y -> protocol_name repl y = Some y.
Proof.
  destruct x as [|c s]; simpl; [discriminate|].
  destruct (is_digit c) eqn:Hd; intros H; injection H as <-.
  - transitivity (Some (sanitize repl ("PEER_" ++ sanitize repl (String c s))));
      [reflexivity|].
    rewrite sanitize_all_ident; [reflexivity|].
    change (all_ident (sanitize repl (String c s)) = true).
    apply sanitize_maps_all_ident.
  - assert (Hy : sanitize repl (sanitize repl (String c s)) = sanitize repl (String c s))
      by (apply sanitize_all_ident, sanitize_maps_all_ident).
    simpl. destruct (is_ident_char c) eqn:Hc.
    + simpl. rewrite Hd. f_equal. simpl in Hy. rewrite Hc in Hy. exact Hy.
    + destruct (repl_maps c) as [c' [Hr [Hc' Hd']]]. rewrite Hr. simpl.
      rewrite Hd'. f_equal. simpl in Hy. rewrite Hc, Hr in Hy. exact Hy.
Qed.

Lemma protocol_name_maps_no_leading_digit x c s :
  protocol_name repl x = Some (String c s) -> is_digit c = false.
Proof.
  destruct x as [|c0 s0]; simpl; [discriminate|].
  destruct (is_digit c0) eqn:Hd; intros H; injection H as H.
  - inversion H. reflexivity.
  - destruct (is_ident_char c0); simpl in H.
    + inversion H; subst. exact Hd.
    + destruct (repl_maps c0) as [c' [Hr [_ Hd']]]. rewrite Hr in H.
      inversion H; subst. exact Hd'.
Qed.
End Mapping.

(* ------------------------------------------------------------------ *)
(** ** Further properties of the code *)

Definition stale_fs : fsys :=
  example_fs {[ ("/etc/bird", "AS65002_STALE.conf") := "protocol bgp STALE {}" ]}.

(** After a run that ends normally, every peer keeps its key, its
    [ProtocolName] is the one derived from its key, and its other fields
    are as loaded. *)
Theorem main_run_exited_protocol_names repl render_global glob_dirs dryRun cfg fs :
  res_outcome (main_run repl render_global glob_dirs dryRun cfg fs) = Exited0 ->
  Forall2 (fun a b => a.1 = b.1 /\ protocol_name repl a.1 = Some (ProtocolName b.2) /\
                      b.2 = set_ProtocolName (ProtocolName b.2) a.2)
    (Peers cfg) (res_peers (main_run repl render_global glob_dirs dryRun cfg fs)).
Proof.
  intros Hex. destruct (main_run_exited_continue _ _ _ _ _ _ Hex) as [fs' E].
  rewrite (main_run_continue _ _ _ _ _ _ _ E) in Hex |- *. simpl in Hex |- *.
  apply peer_loop_exited_names. exact Hex.
Qed.

Lemma main_run_exited_protocol_names_witness :
  res_outcome (main_run repl_underscore render_ok glob_dirs_literal false
                 current_config stale_fs) = Exited0 /\
  Forall2 (fun a b => a.1 = b.1 /\ protocol_name repl_underscore a.1 = Some (ProtocolName b.2) /\
                      b.2 = set_ProtocolName (ProtocolName b.2) a.2)
    (Peers current_config)
    (res_peers (main_run repl_underscore render_ok glob_dirs_literal false
                  current_config stale_fs)).
Proof.
  assert (H : res_outcome (main_run repl_underscore render_ok glob_dirs_literal false
                             current_config stale_fs) = Exited0)
    by (vm_compute; reflexivity).
  split; [exact H|]. exact (main_run_exited_protocol_names _ _ _ _ _ _ H).
Defined.

(** The loop's outcome does not depend on the order in which Go's map
    iteration visits the peers; it panics exactly when some peer name is
    empty, and otherwise completes normally. *)
Theorem peer_loop_outcome_order_independent repl ps ps' :
  Permutation ps ps' ->
  (peer_loop repl ps).1 = (peer_loop repl ps').1 /\
  ((peer_loop repl ps).1 = Panicked <-> exists p, In ("", p) ps) /\
  ((peer_loop repl ps).1 = Exited0 <-> forall n p, In (n, p) ps -> n <> "").
Proof.
  intros HP. rewrite !peer_loop_outcome.
  rewrite <- (existsb_Permutation _ _ _ HP).
  destruct (existsb (fun np => String.eqb np.1 "") ps) eqn:E.
  - apply existsb_exists in E as [[n p] [Hin Hn]]. simpl in Hn.
    apply String.eqb_eq in Hn. subst n.
    split_and!; [reflexivity| split; [eauto|reflexivity] |].
    split; [discriminate|]. intros H. exfalso. exact (H "" p Hin eq_refl).
  - split_and!; [reflexivity| |].
    + split; [discriminate|]. intros [p Hin]. exfalso.
      assert (H : existsb (fun np => String.eqb np.1 "") ps = true)
        by (apply existsb_exists; exists ("", p); auto).
      congruence.
    + split; [|reflexivity]. intros _ n p Hin ->.
      assert (H : existsb (fun np => String.eqb np.1 "") ps = true)
        by (apply existsb_exists; exists ("", p); auto).
      congruence.
Qed.

Lemma peer_loop_outcome_order_independent_witness :
  Permutation (Peers empty_name_config) (rev (Peers empty_name_config)) /\
  (peer_loop repl_underscore (Peers empty_name_config)).1 =
    (peer_loop repl_underscore (rev (Peers empty_name_config))).1 /\
  ((peer_loop repl_underscore (Peers empty_name_config)).1 = Panicked <->
     exists p, In ("", p) (Peers empty_name_config)) /\
  ((peer_loop repl_underscore (Peers empty_name_config)).1 = Exited0 <->
     forall n p, In (n, p) (Peers empty_name_config) -> n <> "").
Proof.
  assert (HP : Permutation (Peers empty_name_config) (rev (Peers empty_name_config)))
    by apply Permutation_rev.
  split; [exact HP|]. exact (peer_loop_outcome_order_independent _ _ _ HP).
Defined.

(** Unless a non-dry run ends in a fatal error (which only the writing
    steps can raise), it ends with the same outcome and the same peer
    records as the dry run on the same input. *)
Theorem non_dry_run_agrees_with_dry_run repl render_global glob_dirs cfg fs :
  (forall msg, res_outcome (main_run repl render_global glob_dirs false cfg fs)
                 <> Fatal msg) ->
  res_outcome (main_run repl render_global glob_dirs false cfg fs) =
    res_outcome (main_run repl render_global glob_dirs true cfg fs) /\
  res_peers (main_run repl render_global glob_dirs false cfg fs) =
    res_peers (main_run repl render_global glob_dirs true cfg fs).
Proof.
  intros Hnf.
  destruct (write_global_and_clean render_global glob_dirs false cfg fs) as [fs'|o fs']
    eqn:E.
  - rewrite (main_run_continue _ _ _ _ _ _ _ E).
    rewrite (main_run_continue repl render_global glob_dirs true cfg fs fs)
      by reflexivity.
    split; reflexivity.
  - exfalso. destruct (write_global_and_clean_stop _ _ _ _ _ _ _ E) as [msg ->].
    apply (Hnf msg). rewrite (main_run_stop _ _ _ _ _ _ _ _ E). reflexivity.
Qed.

Lemma non_dry_run_agrees_with_dry_run_witness :
  (forall msg, res_outcome (main_run repl_underscore render_ok glob_dirs_literal false
                              empty_name_config empty_fs) <> Fatal msg) /\
  res_outcome (main_run repl_underscore render_ok glob_dirs_literal false
                 empty_name_config empty_fs) =
    res_outcome (main_run repl_underscore render_ok glob_dirs_literal true
                   empty_name_config empty_fs) /\
  res_peers (main_run repl_underscore render_ok glob_dirs_literal false
               empty_name_config empty_fs) =
    res_peers (main_run repl_underscore render_ok glob_dirs_literal true
                 empty_name_config empty_fs).
Proof.
  assert (H : forall msg, res_outcome (main_run repl_underscore render_ok
                 glob_dirs_literal false empty_name_config empty_fs) <> Fatal msg)
    by (intros msg; vm_compute; discriminate).
  split; [exact H|]. exact (non_dry_run_agrees_with_dry_run _ _ _ _ _ H).
Defined.

(** After a non-dry run that ends normally, no [AS*.conf] file is left in
    any directory the [BirdSocket] glob matched, [bird.conf] in the output
    directory holds the rendered global template, and every other file is
    as before. *)
Theorem cleanup_postcondition repl render_global glob_dirs cfg fs :
  res_outcome (main_run repl render_global glob_dirs false cfg fs) = Exited0 ->
  exists out ds, render_global cfg = RenderOk out /\
  glob_dirs (BirdSocket cfg) = Some ds /\
  forall k, files (res_fs (main_run repl render_global glob_dirs false cfg fs)) !! k =
    if decide (k.1 ∈ ds /\ match_AS_conf k.2 = true) then None
    else if decide (k = (BirdDirectory cfg, "bird.conf")) then Some out
    else files fs !! k.
Proof.
  intros Hex. destruct (main_run_exited_continue _ _ _ _ _ _ Hex) as [fs1 E].
  destruct (write_global_and_clean_success _ _ _ _ _ E)
    as (out & ds & Hr & Hg & _ & _ & _ & _ & Hk).
  exists out, ds. split_and!; [exact Hr|exact Hg|].
  rewrite main_run_fs, E. exact Hk.
Qed.

Lemma cleanup_postcondition_witness :
  res_outcome (main_run repl_underscore render_ok glob_dirs_literal false
                 current_config stale_fs) = Exited0 /\
  exists out ds, render_ok current_config = RenderOk out /\
  glob_dirs_literal (BirdSocket current_config) = Some ds /\
  forall k, files (res_fs (main_run repl_underscore render_ok glob_dirs_literal false
                             current_config stale_fs)) !! k =
    if decide (k.1 ∈ ds /\ match_AS_conf k.2 = true) then None
    else if decide (k = (BirdDirectory current_config, "bird.conf")) then Some out
    else files stale_fs !! k.
Proof.
  assert (H : res_outcome (main_run repl_underscore render_ok glob_dirs_literal false
                             current_config stale_fs) = Exited0)
    by (vm_compute; reflexivity).
  split; [exact H|]. exact (cleanup_postcondition _ _ _ _ _ H).
Defined.

(** Running the non-dry pipeline again on the file system a normal run
    left behind ends normally and changes nothing. *)
Theorem rerun_idempotent repl render_global glob_dirs cfg fs :
  res_outcome (main_run repl render_global glob_dirs false cfg fs) = Exited0 ->
  res_outcome (main_run repl render_global glob_dirs false cfg
                 (res_fs (main_run repl render_global glob_dirs false cfg fs))) = Exited0 /\
  res_fs (main_run repl render_global glob_dirs false cfg
            (res_fs (main_run repl render_global glob_dirs false cfg fs))) =
    res_fs (main_run repl render_global glob_dirs false cfg fs).
Proof.
  intros Hex. destruct (main_run_exited_continue _ _ _ _ _ _ Hex) as [fs1 E].
  rewrite (main_run_continue _ _ _ _ _ _ _ E) in Hex |- *. simpl in Hex |- *.
  destruct (write_global_and_clean_success _ _ _ _ _ E)
    as (out & ds & Hr & Hg & _ & Hw & Hro & Hu & Hk).
  set (b := (BirdDirectory cfg, "bird.conf")) in *.
  assert (Hb : files fs1 !! b = Some out).
  { rewrite Hk. rewrite decide_False by (intros [_ Hm]; discriminate Hm).
    rewrite decide_True by reflexivity. reflexivity. }
  assert (Hnro : b ∉ readonly fs1) by (rewrite Hro; set_solver).
  assert (Hc : create_ok b fs1 = true).
  { unfold create_ok. rewrite Hb. apply bool_decide_eq_true_2. exact Hnro. }
  assert (Hfix : fs_write b out (fs_create b fs1) = fs1).
  { unfold fs_write, fs_create. cbn [files writable readonly undeletable].
    rewrite insert_insert_eq, insert_id by exact Hb.
    assert (Hd : readonly fs1 ∖ {[b]} = readonly fs1)
      by (apply leibniz_equiv; set_solver).
    rewrite Hd. destruct fs1; reflexivity. }
  assert (E2 : write_global_and_clean render_global glob_dirs false cfg fs1 = Continue fs1).
  { unfold write_global_and_clean. fold b. rewrite Hc, Hr, Hg. rewrite Hfix.
    rewrite glob_AS_conf_empty; [reflexivity|].
    intros k Hks Hm. rewrite Hk. rewrite decide_True by tauto. reflexivity. }
  rewrite (main_run_continue _ _ _ _ _ _ _ E2). simpl. split; [exact Hex|reflexivity].
Qed.

Lemma rerun_idempotent_witness :
  res_outcome (main_run repl_underscore render_ok glob_dirs_literal false
                 current_config stale_fs) = Exited0 /\
  res_outcome (main_run repl_underscore render_ok glob_dirs_literal false current_config
                 (res_fs (main_run repl_underscore render_ok glob_dirs_literal false
                            current_config stale_fs))) = Exited0 /\
  res_fs (main_run repl_underscore render_ok glob_dirs_literal false current_config
            (res_fs (main_run repl_underscore render_ok glob_dirs_literal false
                       current_config stale_fs))) =
    res_fs (main_run repl_underscore render_ok glob_dirs_literal false
              current_config stale_fs).
Proof.
  assert (H : res_outcome (main_run repl_underscore render_ok glob_dirs_literal false
                             current_config stale_fs) = Exited0)
    by (vm_compute; reflexivity).
  split; [exact H|]. exact (rerun_idempotent _ _ _ _ _ H).
Defined.


(** [/run/bird.ctl] is taken as a directory holding [AS1.conf], which can
    be removed, and [AS2.conf], which cannot. *)
Definition locked_socket_fs : fsys :=
  mk_fsys {[ ("/run/bird.ctl", "AS1.conf") := "protocol bgp P1 {}";
             ("/run/bird.ctl", "AS2.conf") := "protocol bgp P2 {}" ]}
    {[ "/etc/bird"; "/run/bird.ctl" ]} ∅ {[ ("/run/bird.ctl", "AS2.conf") ]}.

(** On [locked_socket_fs], [AS1.conf] comes first in [Glob]'s order and is
    removed before the removal of [AS2.conf] fails. *)
Example cleanup_failure_partial_removal :
  files (res_fs (main_run repl_underscore render_ok glob_dirs_literal false
                   current_config locked_socket_fs)) !! ("/run/bird.ctl", "AS1.conf")
    = None.
Proof. vm_compute. reflexivity. Qed.


(** [main] leaves the file system as it was unless the flags parse, no
    version is requested, the templates load, the config file exists and
    parses, and the run is not a dry run. *)
Theorem main_prog_touches_files_only_when_loaded
    repl render_global glob_dirs version tmplErr loadConfig args fs :
  m_fs (main_prog repl render_global glob_dirs version tmplErr loadConfig args fs) <> fs ->
  exists fl configFile cfg,
    args = inr fl /\ ShowVersion fl = false /\ DryRun fl = false /\
    tmplErr = None /\ files fs !! ConfigFile fl = Some configFile /\
    loadConfig configFile = inr cfg.
Proof.
  unfold main_prog. destruct args as [err|fl].
  - destruct (contains_substr "Usage" err); simpl; tauto.
  - destruct (ShowVersion fl) eqn:Hv; [simpl; tauto|].
    destruct tmplErr as [e|]; [simpl; tauto|].
    destruct (files fs !! ConfigFile fl) as [c|] eqn:Hc; [|simpl; tauto].
    destruct (loadConfig c) as [e|cfg] eqn:Hl; [simpl; tauto|].
    simpl. intros Hne. exists fl, c, cfg.
    destruct (DryRun fl) eqn:Hd; [|tauto].
    exfalso. apply Hne. rewrite main_run_fs. reflexivity.
Qed.

Definition config_path : string * string := ("/etc/wireframe", "config.yml").

Definition loaded_fs : fsys :=
  example_fs {[ config_path := "peers: {EXAMPLE: {asn: 65001}}" ]}.

Definition load_current (s : string) : string + config := inr current_config.

Definition run_flags : cli_flags :=
  {| ConfigFile := config_path; DryRun := false; NoConfigure := false;
     ShowVersion := false; Verbose := false |}.

Lemma main_prog_touches_files_only_when_loaded_witness :
  m_fs (main_prog repl_underscore render_ok glob_dirs_literal "devel" None load_current
          (inr run_flags) loaded_fs) <> loaded_fs /\
  exists fl configFile cfg,
    (inr run_flags : string + cli_flags) = inr fl /\ ShowVersion fl = false /\
    DryRun fl = false /\
    (None : option string) = None /\ files loaded_fs !! ConfigFile fl = Some configFile /\
    load_current configFile = inr cfg.
Proof.
  assert (H : m_fs (main_prog repl_underscore render_ok glob_dirs_literal "devel" None
                      load_current (inr run_flags) loaded_fs) <> loaded_fs).
  { intros E. apply (f_equal (fun f => files f !! ("/etc/bird", "bird.conf"))) in E.
    vm_compute in E. discriminate E. }
  split; [exact H|]. exact (main_prog_touches_files_only_when_loaded _ _ _ _ _ _ _ _ H).
Defined.
